(** * Job Part Plan models (ste/ste-mmf-models.go)

    A shallow embedding of the Job Part Plan data model of the storage
    transfer engine: the job and transfer status codes, the plan header,
    the blob-data block, the transfer record and the status accessors
    that go through [sync/atomic].

    Unsigned Go integers are integers of [Z] together with the wrap-around
    of their width; a pointer to a struct field is a pair of a reader and
    a writer of that field; a method with a pointer receiver returns the
    receiver after the call.

    The file declares data and accessors only.  The operations the design
    puts around them (the priority channels, the constructor of the
    blob-data block, the layout builder and the reader of a plan file) are
    modelled from the design document, each marked as such. *)

From Stdlib Require Import ZArith List String Bool Lia.
Import ListNotations.
Open Scope Z_scope.

(** ** Unsigned machine integers *)

Module UInt.

Definition modulus (w : Z) : Z := 2 ^ w.

(** Conversion to the [w]-bit unsigned type. *)
Definition wrap (w z : Z) : Z := z mod modulus w.

Definition in_range (w z : Z) : Prop := 0 <= z < modulus w.

End UInt.

Definition uint8 : Z -> Z := UInt.wrap 8.
Definition uint16 : Z -> Z := UInt.wrap 16.
Definition uint32 : Z -> Z := UInt.wrap 32.
Definition uint64 : Z -> Z := UInt.wrap 64.

Definition is_uint8 : Z -> Prop := UInt.in_range 8.
Definition is_uint16 : Z -> Prop := UInt.in_range 16.
Definition is_uint32 : Z -> Prop := UInt.in_range 32.
Definition is_uint64 : Z -> Prop := UInt.in_range 64.

(** ** Pointers to fields and the atomic primitives *)

(** [&x.f] for a field [f] of a struct of type [S]: what a load through the
    pointer reads and what a store through it leaves behind. *)
Record ptr (S : Type) : Type := mkPtr {
  deref : S -> Z;
  assign : S -> Z -> S
}.
Arguments mkPtr {S} _ _.
Arguments deref {S} _ _.
Arguments assign {S} _ _ _.

Module atomic.

(** [atomic.LoadUint32(addr)]: the 32-bit word at [addr]. *)
Definition LoadUint32 {S : Type} (addr : ptr S) (mem : S) : Z :=
  uint32 (deref addr mem).

(** [atomic.StoreUint32(addr, val)]: the word at [addr] becomes [val]. *)
Definition StoreUint32 {S : Type} (addr : ptr S) (val : Z) (mem : S) : S :=
  assign addr mem (uint32 val).

End atomic.

(** ** Schema version *)

Definition dataSchemaVersion : Z := 0.

(** ** Job status codes *)

(** [type JobStatusCode uint32] *)
Definition JobStatusCode (z : Z) : Z := uint32 z.

Definition JobInProgress : Z := 0.
Definition JobPaused : Z := 1.
Definition JobCancelled : Z := 2.
Definition JobCompleted : Z := 3.

Definition JobStatusCodes : list Z :=
  [JobInProgress; JobPaused; JobCancelled; JobCompleted].

(** [func (status JobStatusCode) String() string]: the switch compares
    [uint32(status)] with the cases in order. *)
Definition JobStatusCode_String (status : Z) : string :=
  let v := uint32 status in
  if v =? 0 then "JobInProgress"%string
  else if v =? 1 then "JobPaused"%string
  else if v =? 2 then "JobCancelled"%string
  else if v =? 3 then "JobCompleted"%string
  else "InvalidStatusCode"%string.

(** ** Structs *)

(** [JobPartPlanBlobData]: the byte arrays are lists of bytes, of the
    length the declaration gives them (see [wt_BlobData]). *)
Record JobPartPlanBlobData : Type := mkBlobData {
  ContentTypeLength : Z;       (* uint8 *)
  ContentType : list Z;        (* [256]byte *)
  ContentEncodingLength : Z;   (* uint8 *)
  ContentEncoding : list Z;    (* [256]byte *)
  MetaDataLength : Z;          (* uint16 *)
  MetaData : list Z;           (* [1000]byte *)
  BlockSize : Z                (* uint64 *)
}.

(** [JobPartPlanHeader]. [common.JobID] is a 16 byte identifier,
    [common.LocationType] and [pipeline.LogLevel] are integer codes. *)
Record JobPartPlanHeader : Type := mkHeader {
  Version : Z;                 (* uint32 *)
  Id : list Z;                 (* common.JobID *)
  PartNum : Z;                 (* uint32 *)
  IsFinalPart : bool;
  Priority : Z;                (* uint8 *)
  TTLAfterCompletion : Z;      (* uint32 *)
  SrcLocationType : Z;         (* common.LocationType *)
  DstLocationType : Z;         (* common.LocationType *)
  NumTransfers : Z;            (* uint32 *)
  LogSeverity : Z;             (* pipeline.LogLevel *)
  BlobData : JobPartPlanBlobData;
  jobStatus : Z                (* JobStatusCode *)
}.

(** [JobPartPlanTransfer]. *)
Record JobPartPlanTransfer : Type := mkTransfer {
  Offset : Z;                  (* uint64 *)
  SrcLength : Z;               (* uint16 *)
  DstLength : Z;               (* uint16 *)
  ChunkNum : Z;                (* uint16 *)
  ModifiedTime : Z;            (* uint32 *)
  SourceSize : Z;              (* uint64 *)
  CompletionTime : Z;          (* uint64 *)
  transferStatus : Z           (* common.TransferStatus *)
}.

(** ** Status accessors *)

(** The address of [jPartPlanHeader.jobStatus], cast to a pointer to
    [uint32]. *)
Definition jobStatus_ptr : ptr JobPartPlanHeader :=
  mkPtr jobStatus
        (fun h v =>
           mkHeader (Version h) (Id h) (PartNum h) (IsFinalPart h) (Priority h)
                    (TTLAfterCompletion h) (SrcLocationType h)
                    (DstLocationType h) (NumTransfers h) (LogSeverity h)
                    (BlobData h) v).

Definition getJobStatus (jPartPlanHeader : JobPartPlanHeader) : Z :=
  JobStatusCode (atomic.LoadUint32 jobStatus_ptr jPartPlanHeader).

Definition setJobStatus (jPartPlanHeader : JobPartPlanHeader) (status : Z)
  : JobPartPlanHeader :=
  atomic.StoreUint32 jobStatus_ptr (uint32 status) jPartPlanHeader.

(** The address of [jPartPlanTransfer.transferStatus], cast to a pointer to
    [uint32]. *)
Definition transferStatus_ptr : ptr JobPartPlanTransfer :=
  mkPtr transferStatus
        (fun t v =>
           mkTransfer (Offset t) (SrcLength t) (DstLength t) (ChunkNum t)
                      (ModifiedTime t) (SourceSize t) (CompletionTime t) v).

(** [common.TransferStatus(x)]: the type is declared over [uint32] (the
    accessors cast its address to a pointer to [uint32]). *)
Definition TransferStatus (z : Z) : Z := uint32 z.

Definition getTransferStatus (jPartPlanTransfer : JobPartPlanTransfer) : Z :=
  TransferStatus (atomic.LoadUint32 transferStatus_ptr jPartPlanTransfer).

Definition setTransferStatus (jPartPlanTransfer : JobPartPlanTransfer)
  (status : Z) : JobPartPlanTransfer :=
  atomic.StoreUint32 transferStatus_ptr (uint32 status) jPartPlanTransfer.

(** ** Priorities and buffer capacities *)

Definition HighJobPriority : Z := 0.
Definition MediumJobPriority : Z := 1.
Definition LowJobPriority : Z := 2.
Definition DefaultJobPriority : Z := HighJobPriority.

Definition MAX_SIZE_CONTENT_TYPE : Z := 256.
Definition MAX_SIZE_CONTENT_ENCODING : Z := 256.
Definition MAX_SIZE_META_DATA : Z := 1000.

(** ** Sizes and alignments of the declared types

    The plan file is the memory image of these structs as the Go compiler
    lays them out on a 64-bit target: a field sits at the first multiple
    of its alignment after the previous field, and a struct is as large as
    the next multiple of its own alignment, the largest of its fields'. *)

Record layout : Type := mkLayout {
  size : Z;
  align : Z
}.

Definition t_bool : layout := mkLayout 1 1.
Definition t_uint8 : layout := mkLayout 1 1.
Definition t_uint16 : layout := mkLayout 2 2.
Definition t_uint32 : layout := mkLayout 4 4.
Definition t_uint64 : layout := mkLayout 8 8.

(** [[n]T] *)
Definition t_array (n : Z) (elem : layout) : layout :=
  mkLayout (n * size elem) (align elem).

Definition align_up (off a : Z) : Z := (off + a - 1) / a * a.

(** Offset of the field called [name], laying the fields out from [off]. *)
Fixpoint field_offset (name : string) (off : Z)
  (fields : list (string * layout)) : option Z :=
  match fields with
  | [] => None
  | (n, l) :: rest =>
      let o := align_up off (align l) in
      if String.eqb n name then Some o
      else field_offset name (o + size l) rest
  end.

Fixpoint field_layout (name : string) (fields : list (string * layout))
  : option layout :=
  match fields with
  | [] => None
  | (n, l) :: rest =>
      if String.eqb n name then Some l else field_layout name rest
  end.

(** First free offset after the fields, laid out from [off]. *)
Fixpoint struct_end (off : Z) (fields : list (string * layout)) : Z :=
  match fields with
  | [] => off
  | (_, l) :: rest => struct_end (align_up off (align l) + size l) rest
  end.

Definition struct_align (fields : list (string * layout)) : Z :=
  fold_right (fun f a => Z.max (align (snd f)) a) 1 fields.

Definition t_struct (fields : list (string * layout)) : layout :=
  mkLayout (align_up (struct_end 0 fields) (struct_align fields))
           (struct_align fields).

(** Bytes the fields take without the padding between them. *)
Definition fields_size (fields : list (string * layout)) : Z :=
  fold_right (fun f a => size (snd f) + a) 0 fields.

Definition wf_layout (l : layout) : Prop := 0 <= size l /\ 0 < align l.

(** The types this file takes from the packages [common] and
    [pipeline]. *)
Record Imports : Type := mkImports {
  JobID_t : layout;            (* common.JobID *)
  LocationType_t : layout;     (* common.LocationType *)
  LogLevel_t : layout          (* pipeline.LogLevel *)
}.

Definition wf_Imports (imp : Imports) : Prop :=
  wf_layout (JobID_t imp) /\ wf_layout (LocationType_t imp) /\
  wf_layout (LogLevel_t imp).

Definition JobPartPlanBlobData_fields : list (string * layout) :=
  [ ("ContentTypeLength", t_uint8);
    ("ContentType", t_array 256 t_uint8);
    ("ContentEncodingLength", t_uint8);
    ("ContentEncoding", t_array 256 t_uint8);
    ("MetaDataLength", t_uint16);
    ("MetaData", t_array 1000 t_uint8);
    ("BlockSize", t_uint64) ]%string.

Definition JobPartPlanBlobData_t : layout := t_struct JobPartPlanBlobData_fields.

Definition JobPartPlanHeader_fields (imp : Imports) : list (string * layout) :=
  [ ("Version", t_uint32);
    ("Id", JobID_t imp);
    ("PartNum", t_uint32);
    ("IsFinalPart", t_bool);
    ("Priority", t_uint8);
    ("TTLAfterCompletion", t_uint32);
    ("SrcLocationType", LocationType_t imp);
    ("DstLocationType", LocationType_t imp);
    ("NumTransfers", t_uint32);
    ("LogSeverity", LogLevel_t imp);
    ("BlobData", JobPartPlanBlobData_t);
    ("jobStatus", t_uint32) ]%string.

Definition JobPartPlanHeader_t (imp : Imports) : layout :=
  t_struct (JobPartPlanHeader_fields imp).

Definition JobPartPlanTransfer_fields : list (string * layout) :=
  [ ("Offset", t_uint64);
    ("SrcLength", t_uint16);
    ("DstLength", t_uint16);
    ("ChunkNum", t_uint16);
    ("ModifiedTime", t_uint32);
    ("SourceSize", t_uint64);
    ("CompletionTime", t_uint64);
    ("transferStatus", t_uint32) ]%string.

Definition JobPartPlanTransfer_t : layout := t_struct JobPartPlanTransfer_fields.

(** Number of elements of the array a field is declared as. *)
Definition array_len (name : string) (fields : list (string * layout))
  : option Z :=
  match field_layout name fields with
  | Some l => Some (size l / size t_uint8)
  | None => None
  end.

(** ** Values of the declared types *)

Definition len {A : Type} (l : list A) : Z := Z.of_nat (List.length l).

Definition is_bytes (n : Z) (bs : list Z) : Prop :=
  len bs = n /\ Forall is_uint8 bs.

Definition wt_BlobData (b : JobPartPlanBlobData) : Prop :=
  is_uint8 (ContentTypeLength b) /\ is_bytes 256 (ContentType b) /\
  is_uint8 (ContentEncodingLength b) /\ is_bytes 256 (ContentEncoding b) /\
  is_uint16 (MetaDataLength b) /\ is_bytes 1000 (MetaData b) /\
  is_uint64 (BlockSize b).

Definition wt_Transfer (t : JobPartPlanTransfer) : Prop :=
  is_uint64 (Offset t) /\ is_uint16 (SrcLength t) /\ is_uint16 (DstLength t) /\
  is_uint16 (ChunkNum t) /\ is_uint32 (ModifiedTime t) /\
  is_uint64 (SourceSize t) /\ is_uint64 (CompletionTime t) /\
  is_uint32 (transferStatus t).

(** ** Errors of the plan layer *)

(** Modelled from the spec: the error conditions of section 7 that the
    operations below report. *)
Inductive PlanError : Type :=
| SchemaVersionMismatch
| CorruptPlan.

Inductive result (A : Type) : Type :=
| Ok (a : A)
| Err (e : PlanError).
Arguments Ok {A} _.
Arguments Err {A} _.

Definition bind {A B : Type} (r : result A) (k : A -> result B) : result B :=
  match r with
  | Ok a => k a
  | Err e => Err e
  end.

Notation "x <- r ;; k" := (bind r (fun x => k))
  (at level 61, r at next level, right associativity).

(** [check c e]: go on when [c] holds, fail with [e] otherwise. *)
Definition check (c : bool) (e : PlanError) : result unit :=
  if c then Ok tt else Err e.

Definition is_ok {A : Type} (r : result A) : bool :=
  match r with
  | Ok _ => true
  | Err _ => false
  end.

(** ** Status state machines *)

(** Modelled from the spec: the job status state machine of section 4.4
    (the source declares the four codes and no transition function):
    [InProgress <-> Paused], [InProgress -> Cancelled],
    [InProgress -> Completed]. *)
Definition jobTransitionAllowed (from to : Z) : bool :=
  ((from =? JobInProgress) && (to =? JobPaused)) ||
  ((from =? JobInProgress) && (to =? JobCancelled)) ||
  ((from =? JobInProgress) && (to =? JobCompleted)) ||
  ((from =? JobPaused) && (to =? JobInProgress)).

(** Modelled from the spec: the terminal job statuses of the glossary. *)
Definition jobTerminal (s : Z) : bool :=
  (s =? JobCancelled) || (s =? JobCompleted).

(** A caller that follows the job state machine: every status it asks for
    is an allowed successor of the one requested before it. *)
Fixpoint followsJobMachine (cur : Z) (requests : list Z) : bool :=
  match requests with
  | [] => true
  | s :: rest => jobTransitionAllowed cur s && followsJobMachine s rest
  end.

(** ** Priority channels *)

(** Modelled from the spec: the three scheduling queues of section 4.3. *)
Inductive Channel : Type :=
| HighChannel
| MediumChannel
| LowChannel.

(** Modelled from the spec: the priority to channel mapping of section 4.3
    (the source declares the priority constants and no mapping). *)
Definition priorityChannel (priority : Z) : result Channel :=
  if priority =? HighJobPriority then Ok HighChannel
  else if priority =? MediumJobPriority then Ok MediumChannel
  else if priority =? LowJobPriority then Ok LowChannel
  else Err CorruptPlan.

(** ** Construction of the blob-data block *)

(** The first [len bs] bytes of a buffer of [cap] bytes are [bs]. *)
Definition fillBuffer (cap : Z) (bs : list Z) : list Z :=
  bs ++ repeat 0 (Z.to_nat (cap - len bs)).

(** Modelled from the spec: the constructor of the blob-data block, which
    section 3 (invariant 4) makes the place where the lengths are checked
    against the capacities (the source declares the struct and the
    capacities and no constructor). *)
Definition newBlobData (contentType contentEncoding metaData : list Z)
  (blockSize : Z) : result JobPartPlanBlobData :=
  _ <- check (len contentType <=? MAX_SIZE_CONTENT_TYPE) CorruptPlan ;;
  _ <- check (len contentEncoding <=? MAX_SIZE_CONTENT_ENCODING) CorruptPlan ;;
  _ <- check (len metaData <=? MAX_SIZE_META_DATA) CorruptPlan ;;
  Ok (mkBlobData
        (uint8 (len contentType))
        (fillBuffer MAX_SIZE_CONTENT_TYPE contentType)
        (uint8 (len contentEncoding))
        (fillBuffer MAX_SIZE_CONTENT_ENCODING contentEncoding)
        (uint16 (len metaData))
        (fillBuffer MAX_SIZE_META_DATA metaData)
        (uint64 blockSize)).

(** ** The plan file *)

(** Modelled from the spec: what the mapped file holds (section 6), the
    header, the transfer records that follow it and the bytes of the
    string pool after them. *)
Record PlanFile : Type := mkPlanFile {
  pfHeader : JobPartPlanHeader;
  pfTransfers : list JobPartPlanTransfer;
  pfPool : list Z
}.

Definition sizeofHeader (imp : Imports) : Z := size (JobPartPlanHeader_t imp).
Definition sizeofTransfer : Z := size JobPartPlanTransfer_t.

Arguments sizeofHeader : simpl never.
Arguments sizeofTransfer : simpl never.

(** Modelled from the spec: the regions of section 4.2, as pairs of a first
    byte and a byte one past the last (the source declares the structs and
    no addressing code). *)
Definition headerRegion (headerSize : Z) : Z * Z := (0, headerSize).

(** Modelled from the spec: the bytes of transfer record [i]
    (section 4.2). *)
Definition transferRegion (headerSize : Z) (i : Z) : Z * Z :=
  (headerSize + i * sizeofTransfer,
   headerSize + (i + 1) * sizeofTransfer).

(** Modelled from the spec: the first byte of the string pool
    (section 4.2). *)
Definition poolStart (headerSize : Z) (numTransfers : Z) : Z :=
  headerSize + numTransfers * sizeofTransfer.

(** The size of the file: header, records and pool. *)
Definition fileSize (headerSize : Z) (pf : PlanFile) : Z :=
  poolStart headerSize (len (pfTransfers pf)) + len (pfPool pf).

Arguments poolStart : simpl never.
Arguments fileSize : simpl never.

(** Modelled from the spec: invariant 5 of section 3 and the pool boundary
    of section 4.2, for one record. *)
Definition transferInBounds (start total : Z) (t : JobPartPlanTransfer) : bool :=
  (start <=? Offset t) && (Offset t + SrcLength t + DstLength t <=? total).

(** Modelled from the spec: what the orchestrator gives the layout builder
    for one transfer, the two path strings and the metadata. *)
Record TransferInput : Type := mkTransferInput {
  tiSource : list Z;
  tiDestination : list Z;
  tiChunkNum : Z;
  tiModifiedTime : Z;
  tiSourceSize : Z
}.

Definition stringsLength (i : TransferInput) : Z :=
  len (tiSource i) + len (tiDestination i).

Definition poolOf (inputs : list TransferInput) : list Z :=
  flat_map (fun i => tiSource i ++ tiDestination i) inputs.

(** Modelled from the spec: the forward pass of the layout builder.  The
    strings of the first transfer are at [off], those of the next one
    after them, and so on; every record starts with the given status and
    no completion time. *)
Fixpoint layoutTransfers (status : Z) (off : Z) (inputs : list TransferInput)
  : list JobPartPlanTransfer :=
  match inputs with
  | [] => []
  | i :: rest =>
      mkTransfer (uint64 off)
                 (uint16 (len (tiSource i)))
                 (uint16 (len (tiDestination i)))
                 (uint16 (tiChunkNum i))
                 (uint32 (tiModifiedTime i))
                 (uint64 (tiSourceSize i))
                 0
                 status
      :: layoutTransfers status (off + stringsLength i) rest
  end.

(** Modelled from the spec: the layout builder of section 4.2 (the source
    has no builder).  One forward pass gives every record its offset and
    the initial status [common] declares for a transfer, the header gets
    the schema version, the number of records and the initial job status,
    and the total size of the file is returned with the file. *)
Definition buildPlan (headerSize initialStatus : Z) (h : JobPartPlanHeader)
  (inputs : list TransferInput) : PlanFile * Z :=
  let n := len inputs in
  let start := poolStart headerSize n in
  let header :=
    mkHeader dataSchemaVersion (Id h) (PartNum h) (IsFinalPart h) (Priority h)
             (TTLAfterCompletion h) (SrcLocationType h) (DstLocationType h)
             (uint32 n) (LogSeverity h) (BlobData h) JobInProgress in
  let transfers := layoutTransfers initialStatus start inputs in
  let pool := poolOf inputs in
  (mkPlanFile header transfers pool, start + len pool).

(** Modelled from the spec: the read API of section 4.2 and the errors of
    section 7 (the source has no reader).  The version is compared first;
    then invariant 6 and, for every record, invariant 5. *)
Definition openPlan (headerSize : Z) (pf : PlanFile) : result PlanFile :=
  let h := pfHeader pf in
  _ <- check (Version h =? dataSchemaVersion) SchemaVersionMismatch ;;
  _ <- check (NumTransfers h =? len (pfTransfers pf)) CorruptPlan ;;
  _ <- check (forallb (transferInBounds (poolStart headerSize (NumTransfers h))
                                         (fileSize headerSize pf))
                      (pfTransfers pf)) CorruptPlan ;;
  Ok pf.

(** Modelled from the spec: the [n] bytes of the file at offset [off],
    an offset into the string pool. *)
Definition slice (headerSize : Z) (pf : PlanFile) (off n : Z) : list Z :=
  firstn (Z.to_nat n)
         (skipn (Z.to_nat (off - poolStart headerSize (len (pfTransfers pf))))
                (pfPool pf)).

(** The two path strings of an input have lengths a record can hold. *)
Definition fitsTransferInput (i : TransferInput) : Prop :=
  is_uint16 (len (tiSource i)) /\ is_uint16 (len (tiDestination i)).

(** The pool holds the two strings of input [i] where record [t] says. *)
Definition resolves (headerSize : Z) (pf : PlanFile) (i : TransferInput)
  (t : JobPartPlanTransfer) : Prop :=
  slice headerSize pf (Offset t) (SrcLength t) = tiSource i /\
  slice headerSize pf (Offset t + SrcLength t) (DstLength t) = tiDestination i.

(** The same header with another blob-data block. *)
Definition withBlobData (h : JobPartPlanHeader) (b : JobPartPlanBlobData)
  : JobPartPlanHeader :=
  mkHeader (Version h) (Id h) (PartNum h) (IsFinalPart h) (Priority h)
           (TTLAfterCompletion h) (SrcLocationType h) (DstLocationType h)
           (NumTransfers h) (LogSeverity h) b (jobStatus h).

(** The same header with another schema version. *)
Definition withVersion (h : JobPartPlanHeader) (v : Z) : JobPartPlanHeader :=
  mkHeader v (Id h) (PartNum h) (IsFinalPart h) (Priority h)
           (TTLAfterCompletion h) (SrcLocationType h) (DstLocationType h)
           (NumTransfers h) (LogSeverity h) (BlobData h) (jobStatus h).

(** ** Sample values *)

Definition sampleBlobData : JobPartPlanBlobData :=
  mkBlobData 0 (repeat 0 256) 0 (repeat 0 256) 0 (repeat 0 1000) 4194304.

Definition sampleHeader : JobPartPlanHeader :=
  mkHeader 0 (repeat 7 16) 0 true LowJobPriority 3600 1 2 2 4
           sampleBlobData JobInProgress.

Definition sampleTransfer : JobPartPlanTransfer :=
  mkTransfer 1664 5 5 1 1500000000 1024 0 0.

(** A byte array for the identifier, one byte location types and a 32-bit
    log level. *)
Definition sampleImports : Imports :=
  mkImports (t_array 16 t_uint8) t_uint8 t_uint32.

(** ["a.txt"] and ["b.txt"] *)
Definition sampleInputs : list TransferInput :=
  [ mkTransferInput [97; 46; 116; 120; 116] [98; 46; 116; 120; 116] 1 0 1024;
    mkTransferInput [97; 46; 116; 120; 116] [98; 46; 116; 120; 116] 1 0 1024 ].

(** * Properties *)

(** ** Machine integers *)

Lemma modulus_pos w : 0 <= w -> 0 < UInt.modulus w.
Proof. intros Hw. unfold UInt.modulus. apply Z.pow_pos_nonneg; lia. Qed.

Lemma wrap_in_range w z : 0 <= w -> UInt.in_range w (UInt.wrap w z).
Proof.
  intros Hw. unfold UInt.in_range, UInt.wrap.
  apply Z.mod_pos_bound, modulus_pos, Hw.
Qed.

Lemma wrap_small w z : UInt.in_range w z -> UInt.wrap w z = z.
Proof. unfold UInt.in_range, UInt.wrap. intros H. apply Z.mod_small, H. Qed.

Lemma uint8_small z : is_uint8 z -> uint8 z = z.
Proof. apply wrap_small. Qed.

Lemma uint16_small z : is_uint16 z -> uint16 z = z.
Proof. apply wrap_small. Qed.

Lemma uint32_small z : is_uint32 z -> uint32 z = z.
Proof. apply wrap_small. Qed.

Lemma uint64_small z : is_uint64 z -> uint64 z = z.
Proof. apply wrap_small. Qed.

Lemma uint8_range z : is_uint8 (uint8 z).
Proof. apply wrap_in_range. lia. Qed.

Lemma uint16_range z : is_uint16 (uint16 z).
Proof. apply wrap_in_range. lia. Qed.

Lemma uint32_range z : is_uint32 (uint32 z).
Proof. apply wrap_in_range. lia. Qed.

Lemma uint64_range z : is_uint64 (uint64 z).
Proof. apply wrap_in_range. lia. Qed.

Lemma uint32_idem z : uint32 (uint32 z) = uint32 z.
Proof. apply uint32_small, uint32_range. Qed.

Lemma is_uint8_bounds z : is_uint8 z <-> 0 <= z < 256.
Proof. reflexivity. Qed.

Lemma is_uint16_bounds z : is_uint16 z <-> 0 <= z < 65536.
Proof. reflexivity. Qed.

Lemma is_uint32_bounds z : is_uint32 z <-> 0 <= z < 4294967296.
Proof. reflexivity. Qed.

Lemma is_uint64_bounds z : is_uint64 z <-> 0 <= z < 18446744073709551616.
Proof. reflexivity. Qed.

Lemma JobStatusCodes_bounds s : In s JobStatusCodes <-> 0 <= s <= 3.
Proof.
  unfold JobStatusCodes, JobInProgress, JobPaused, JobCancelled, JobCompleted.
  simpl. lia.
Qed.

Lemma JobStatusCodes_uint32 s : In s JobStatusCodes -> is_uint32 s.
Proof.
  rewrite JobStatusCodes_bounds, is_uint32_bounds. lia.
Qed.

(** ** The accessors *)

Lemma jobStatus_setJobStatus h s : jobStatus (setJobStatus h s) = uint32 s.
Proof.
  unfold setJobStatus, atomic.StoreUint32. simpl. apply uint32_idem.
Qed.

Lemma getJobStatus_word h : getJobStatus h = uint32 (jobStatus h).
Proof.
  unfold getJobStatus, JobStatusCode, atomic.LoadUint32. simpl.
  apply uint32_idem.
Qed.

Lemma getJobStatus_setJobStatus h s : getJobStatus (setJobStatus h s) = uint32 s.
Proof.
  rewrite getJobStatus_word, jobStatus_setJobStatus. apply uint32_idem.
Qed.

Lemma transferStatus_setTransferStatus t s :
  transferStatus (setTransferStatus t s) = uint32 s.
Proof.
  unfold setTransferStatus, atomic.StoreUint32. simpl. apply uint32_idem.
Qed.

Lemma getTransferStatus_word t : getTransferStatus t = uint32 (transferStatus t).
Proof.
  unfold getTransferStatus, TransferStatus, atomic.LoadUint32. simpl.
  apply uint32_idem.
Qed.

Lemma getTransferStatus_setTransferStatus t s :
  getTransferStatus (setTransferStatus t s) = uint32 s.
Proof.
  rewrite getTransferStatus_word, transferStatus_setTransferStatus.
  apply uint32_idem.
Qed.

(** C1. A job status code written with [setJobStatus] is what
    [getJobStatus] returns, and a transfer status written with
    [setTransferStatus] is what [getTransferStatus] returns.  Each setter
    is one store of the 32-bit word through the pointer to the status
    field, whatever the word held before, and each getter is one load of
    that word. *)
Theorem C1_status_roundtrip (h h' : JobPartPlanHeader)
  (t t' : JobPartPlanTransfer) (sj st : Z) :
  In sj JobStatusCodes ->
  is_uint32 st ->
  getJobStatus (setJobStatus h sj) = sj /\
  getTransferStatus (setTransferStatus t st) = st /\
  setJobStatus h sj = assign jobStatus_ptr h sj /\
  setTransferStatus t st = assign transferStatus_ptr t st /\
  getJobStatus h = uint32 (deref jobStatus_ptr h) /\
  getTransferStatus t = uint32 (deref transferStatus_ptr t) /\
  getJobStatus (setJobStatus h sj) = getJobStatus (setJobStatus h' sj) /\
  getTransferStatus (setTransferStatus t st) =
  getTransferStatus (setTransferStatus t' st).
Proof.
  intros Hj Ht. apply JobStatusCodes_uint32 in Hj.
  rewrite !getJobStatus_setJobStatus, !getTransferStatus_setTransferStatus.
  rewrite (uint32_small sj Hj), (uint32_small st Ht).
  repeat split.
  - unfold setJobStatus, atomic.StoreUint32.
    now rewrite uint32_idem, (uint32_small sj Hj).
  - unfold setTransferStatus, atomic.StoreUint32.
    now rewrite uint32_idem, (uint32_small st Ht).
  - apply getJobStatus_word.
  - apply getTransferStatus_word.
Qed.

Lemma C1_status_roundtrip_witness :
  getJobStatus (setJobStatus sampleHeader JobPaused) = JobPaused /\
  getTransferStatus (setTransferStatus sampleTransfer 2) = 2.
Proof.
  destruct (C1_status_roundtrip sampleHeader sampleHeader
              sampleTransfer sampleTransfer JobPaused 2) as (Hj & Ht & _).
  - simpl. tauto.
  - unfold is_uint32, UInt.in_range, UInt.modulus. simpl. lia.
  - split; [exact Hj | exact Ht].
Defined.

Lemma setTransferStatus_wt t s :
  wt_Transfer t -> wt_Transfer (setTransferStatus t s).
Proof.
  unfold wt_Transfer. rewrite transferStatus_setTransferStatus. simpl.
  intros (Ho & Hs & Hd & Hc & Hm & Hz & Hct & _).
  exact (conj Ho (conj Hs (conj Hd (conj Hc (conj Hm (conj Hz
           (conj Hct (uint32_range s)))))))).
Qed.

(** ** Rendering of job status codes *)

Lemma JobStatusCode_String_invalid s :
  ~ In (uint32 s) JobStatusCodes ->
  JobStatusCode_String s = "InvalidStatusCode"%string.
Proof.
  rewrite JobStatusCodes_bounds. intros Hs.
  pose proof (uint32_range s) as Hr. rewrite is_uint32_bounds in Hr.
  unfold JobStatusCode_String.
  destruct (Z.eqb_spec (uint32 s) 0); [lia|].
  destruct (Z.eqb_spec (uint32 s) 1); [lia|].
  destruct (Z.eqb_spec (uint32 s) 2); [lia|].
  destruct (Z.eqb_spec (uint32 s) 3); [lia|].
  reflexivity.
Qed.

(** C2 as stated does not hold: the name [String] gives for
    [JobInProgress] is not ["InProgress"], and likewise for the other
    three codes. *)
Lemma C2_names_not_as_listed :
  JobStatusCode_String JobInProgress <> "InProgress"%string /\
  JobStatusCode_String JobPaused <> "Paused"%string /\
  JobStatusCode_String JobCancelled <> "Cancelled"%string /\
  JobStatusCode_String JobCompleted <> "Completed"%string.
Proof. repeat split; discriminate. Qed.

(** C2, amended. [String] renders the codes 0, 1, 2 and 3 as
    ["JobInProgress"], ["JobPaused"], ["JobCancelled"] and
    ["JobCompleted"], and every other 32-bit value as
    ["InvalidStatusCode"]. *)
Theorem C2_job_status_names (s : Z) :
  is_uint32 s ->
  JobInProgress = 0 /\ JobPaused = 1 /\ JobCancelled = 2 /\ JobCompleted = 3 /\
  JobStatusCode_String JobInProgress = "JobInProgress"%string /\
  JobStatusCode_String JobPaused = "JobPaused"%string /\
  JobStatusCode_String JobCancelled = "JobCancelled"%string /\
  JobStatusCode_String JobCompleted = "JobCompleted"%string /\
  (~ In s JobStatusCodes ->
   JobStatusCode_String s = "InvalidStatusCode"%string).
Proof.
  intros Hs. repeat split.
  intros Hn. apply JobStatusCode_String_invalid.
  now rewrite (uint32_small s Hs).
Qed.

Lemma C2_job_status_names_witness :
  JobStatusCode_String 4 = "InvalidStatusCode"%string /\
  JobStatusCode_String 4294967295 = "InvalidStatusCode"%string.
Proof.
  split.
  - apply (C2_job_status_names 4).
    + rewrite is_uint32_bounds. lia.
    + rewrite JobStatusCodes_bounds. lia.
  - apply (C2_job_status_names 4294967295).
    + rewrite is_uint32_bounds. lia.
    + rewrite JobStatusCodes_bounds. lia.
Defined.

(** ** What the setters leave alone *)

(** C7. [setJobStatus] changes the [jobStatus] word of the header and no
    other field, [setTransferStatus] changes the [transferStatus] word of
    the record and no other field, and neither looks at the status held
    before: the word after the call is the status given, for every
    header, record and status. *)
Theorem C7_setters_frame (h : JobPartPlanHeader) (t : JobPartPlanTransfer)
  (s : Z) :
  (Version (setJobStatus h s) = Version h /\
   Id (setJobStatus h s) = Id h /\
   PartNum (setJobStatus h s) = PartNum h /\
   IsFinalPart (setJobStatus h s) = IsFinalPart h /\
   Priority (setJobStatus h s) = Priority h /\
   TTLAfterCompletion (setJobStatus h s) = TTLAfterCompletion h /\
   SrcLocationType (setJobStatus h s) = SrcLocationType h /\
   DstLocationType (setJobStatus h s) = DstLocationType h /\
   NumTransfers (setJobStatus h s) = NumTransfers h /\
   LogSeverity (setJobStatus h s) = LogSeverity h /\
   BlobData (setJobStatus h s) = BlobData h) /\
  (Offset (setTransferStatus t s) = Offset t /\
   SrcLength (setTransferStatus t s) = SrcLength t /\
   DstLength (setTransferStatus t s) = DstLength t /\
   ChunkNum (setTransferStatus t s) = ChunkNum t /\
   ModifiedTime (setTransferStatus t s) = ModifiedTime t /\
   SourceSize (setTransferStatus t s) = SourceSize t /\
   CompletionTime (setTransferStatus t s) = CompletionTime t) /\
  jobStatus (setJobStatus h s) = uint32 s /\
  transferStatus (setTransferStatus t s) = uint32 s.
Proof.
  split; [|split; [|split]].
  - repeat split.
  - repeat split.
  - apply jobStatus_setJobStatus.
  - apply transferStatus_setTransferStatus.
Qed.

(** C9. [setTransferStatus] does not write [CompletionTime]: the field
    after the call is the field before it, for every record and every
    status, the terminal ones included. *)
Theorem C9_completion_time_untouched (t : JobPartPlanTransfer) (s : Z) :
  CompletionTime (setTransferStatus t s) = CompletionTime t.
Proof. reflexivity. Qed.

(** C10. The setters take every 32-bit value: the value is stored as it
    is and the getter returns it, also when it is none of the declared
    codes; such a value is told apart only by [String], which renders it
    as ["InvalidStatusCode"]. *)
Theorem C10_setters_total (h : JobPartPlanHeader) (t : JobPartPlanTransfer)
  (v : Z) :
  is_uint32 v ->
  jobStatus (setJobStatus h v) = v /\
  getJobStatus (setJobStatus h v) = v /\
  transferStatus (setTransferStatus t v) = v /\
  getTransferStatus (setTransferStatus t v) = v /\
  (~ In v JobStatusCodes ->
   JobStatusCode_String (getJobStatus (setJobStatus h v)) =
   "InvalidStatusCode"%string).
Proof.
  intros Hv.
  rewrite jobStatus_setJobStatus, getJobStatus_setJobStatus,
    transferStatus_setTransferStatus, getTransferStatus_setTransferStatus,
    (uint32_small v Hv).
  repeat split.
  intros Hn. apply JobStatusCode_String_invalid.
  now rewrite (uint32_small v Hv).
Qed.

Lemma C10_setters_total_witness :
  getJobStatus (setJobStatus sampleHeader 4294967295) = 4294967295 /\
  getTransferStatus (setTransferStatus sampleTransfer 4294967295) = 4294967295 /\
  JobStatusCode_String (getJobStatus (setJobStatus sampleHeader 4294967295)) =
  "InvalidStatusCode"%string.
Proof.
  destruct (C10_setters_total sampleHeader sampleTransfer 4294967295)
    as (_ & Hj & _ & Ht & Hs).
  - rewrite is_uint32_bounds. lia.
  - split; [exact Hj | split; [exact Ht |]].
    apply Hs. rewrite JobStatusCodes_bounds. lia.
Defined.

(** ** Sequences of status writes *)

Lemma last_cons_default (s : Z) (ss : list Z) (d d' : Z) :
  last (s :: ss) d = last (s :: ss) d'.
Proof.
  revert s. induction ss as [|x ss IH]; intros s; [reflexivity|].
  change (last (x :: ss) d = last (x :: ss) d'). apply IH.
Qed.

Lemma setJobStatus_run (ss : list Z) (h : JobPartPlanHeader) :
  Forall is_uint32 ss ->
  getJobStatus (fold_left setJobStatus ss h) = last ss (getJobStatus h).
Proof.
  revert h. induction ss as [|s ss IH]; intros h Hss; [reflexivity|].
  inversion Hss as [|? ? Hs Hrest]; subst.
  change (getJobStatus (fold_left setJobStatus ss (setJobStatus h s)) =
          last (s :: ss) (getJobStatus h)).
  rewrite (IH _ Hrest), getJobStatus_setJobStatus, (uint32_small s Hs).
  destruct ss as [|x ss]; [reflexivity|].
  change (last (x :: ss) s = last (x :: ss) (getJobStatus h)).
  apply last_cons_default.
Qed.

Lemma setTransferStatus_run (ss : list Z) (t : JobPartPlanTransfer) :
  Forall is_uint32 ss ->
  getTransferStatus (fold_left setTransferStatus ss t) =
  last ss (getTransferStatus t).
Proof.
  revert t. induction ss as [|s ss IH]; intros t Hss; [reflexivity|].
  inversion Hss as [|? ? Hs Hrest]; subst.
  change (getTransferStatus
            (fold_left setTransferStatus ss (setTransferStatus t s)) =
          last (s :: ss) (getTransferStatus t)).
  rewrite (IH _ Hrest), getTransferStatus_setTransferStatus,
    (uint32_small s Hs).
  destruct ss as [|x ss]; [reflexivity|].
  change (last (x :: ss) s = last (x :: ss) (getTransferStatus t)).
  apply last_cons_default.
Qed.

Lemma jobTransitionAllowed_codes (a b : Z) :
  jobTransitionAllowed a b = true ->
  In a JobStatusCodes /\ In b JobStatusCodes /\ jobTerminal a = false.
Proof.
  unfold jobTransitionAllowed, jobTerminal.
  rewrite !JobStatusCodes_bounds.
  unfold JobInProgress, JobPaused, JobCancelled, JobCompleted.
  rewrite !orb_true_iff, !andb_true_iff, !Z.eqb_eq, orb_false_iff, !Z.eqb_neq.
  lia.
Qed.

Lemma followsJobMachine_terminal (cur : Z) (ss : list Z) :
  jobTerminal cur = true -> followsJobMachine cur ss = true -> ss = [].
Proof.
  intros Hterm Hrun. destruct ss as [|s ss]; [reflexivity|].
  simpl in Hrun. apply andb_true_iff in Hrun as [Hstep _].
  apply jobTransitionAllowed_codes in Hstep as (_ & _ & Hnt).
  congruence.
Qed.

Lemma followsJobMachine_codes (ss : list Z) (cur : Z) :
  In cur JobStatusCodes -> followsJobMachine cur ss = true ->
  In (last ss cur) JobStatusCodes /\ Forall is_uint32 ss.
Proof.
  revert cur. induction ss as [|s ss IH]; intros cur Hcur Hrun.
  - split; [exact Hcur | constructor].
  - simpl in Hrun. apply andb_true_iff in Hrun as [Hstep Hrest].
    apply jobTransitionAllowed_codes in Hstep as (_ & Hs & _).
    destruct (IH s Hs Hrest) as [Hlast Hall]. split.
    + destruct ss as [|x ss]; [exact Hs|].
      change (In (last (x :: ss) cur) JobStatusCodes).
      rewrite (last_cons_default x ss cur s). exact Hlast.
    + constructor; [apply JobStatusCodes_uint32, Hs | exact Hall].
Qed.

(** C3 as stated does not hold.  A header whose status is the
    terminal [JobCompleted] goes back to [JobInProgress] with one call of
    [setJobStatus], a step the job state machine does not have; and no
    32-bit value at all is a transfer status that [setTransferStatus]
    leaves in place. *)
Lemma C3_terminal_status_overwritten :
  (getJobStatus (setJobStatus sampleHeader JobCompleted) = JobCompleted /\
   jobTerminal JobCompleted = true /\
   jobTransitionAllowed JobCompleted JobInProgress = false /\
   getJobStatus
     (setJobStatus (setJobStatus sampleHeader JobCompleted) JobInProgress) =
   JobInProgress) /\
  ~ (exists terminal : Z,
        is_uint32 terminal /\
        forall (t : JobPartPlanTransfer) (s : Z),
          is_uint32 s ->
          getTransferStatus t = terminal ->
          getTransferStatus (setTransferStatus t s) = terminal).
Proof.
  split; [repeat split|].
  intros (terminal & Hterm & Hstay).
  assert (Hheld : getTransferStatus (setTransferStatus sampleTransfer terminal)
                  = terminal).
  { now rewrite getTransferStatus_setTransferStatus, uint32_small. }
  rewrite is_uint32_bounds in Hterm.
  destruct (Z.eq_dec terminal 0) as [->|Hne].
  - specialize (Hstay _ 1 ltac:(rewrite is_uint32_bounds; lia) Hheld).
    rewrite getTransferStatus_setTransferStatus in Hstay. discriminate Hstay.
  - specialize (Hstay _ 0 ltac:(rewrite is_uint32_bounds; lia) Hheld).
    rewrite getTransferStatus_setTransferStatus in Hstay.
    change (uint32 0) with 0 in Hstay. lia.
Qed.

(** C3, amended.  The setters do not guard transitions: after any
    sequence of calls of [setJobStatus] (of [setTransferStatus]) the status
    is the one the last call gave, whatever the status was before,
    terminal or not.  The transitions are monotone when the caller follows
    the state machine: a sequence of job statuses in which every request
    is an allowed successor of the status before it ends in one of the
    four job statuses, and is empty, so leaves the status as it is, once
    the status is [JobCancelled] or [JobCompleted]. *)
Theorem C3_last_store_wins (h : JobPartPlanHeader) (t : JobPartPlanTransfer)
  (ss : list Z) :
  Forall is_uint32 ss ->
  getJobStatus (fold_left setJobStatus ss h) = last ss (getJobStatus h) /\
  getTransferStatus (fold_left setTransferStatus ss t) =
  last ss (getTransferStatus t) /\
  (In (getJobStatus h) JobStatusCodes ->
   followsJobMachine (getJobStatus h) ss = true ->
   In (getJobStatus (fold_left setJobStatus ss h)) JobStatusCodes /\
   (jobTerminal (getJobStatus h) = true ->
    getJobStatus (fold_left setJobStatus ss h) = getJobStatus h)).
Proof.
  intros Hss. split; [|split].
  - apply setJobStatus_run, Hss.
  - apply setTransferStatus_run, Hss.
  - intros Hcur Hrun. rewrite (setJobStatus_run ss h Hss). split.
    + apply (followsJobMachine_codes ss _ Hcur Hrun).
    + intros Hterm.
      now rewrite (followsJobMachine_terminal _ ss Hterm Hrun).
Qed.

Lemma C3_last_store_wins_witness :
  getJobStatus
    (fold_left setJobStatus [JobPaused; JobInProgress; JobCompleted]
               sampleHeader) = JobCompleted /\
  getTransferStatus
    (fold_left setTransferStatus [JobPaused; JobInProgress; JobCompleted]
               sampleTransfer) = JobCompleted.
Proof.
  destruct (C3_last_store_wins sampleHeader sampleTransfer
              [JobPaused; JobInProgress; JobCompleted]) as (Hj & Ht & _).
  - repeat (apply Forall_cons;
              [rewrite is_uint32_bounds;
               unfold JobPaused, JobInProgress, JobCompleted; lia|]).
    apply Forall_nil.
  - split; [exact Hj | exact Ht].
Defined.

(** ** The error monad *)

Lemma bind_check_ok {B : Type} (c : bool) (e : PlanError) (k : unit -> result B)
  (b : B) :
  bind (check c e) k = Ok b -> c = true /\ k tt = Ok b.
Proof. destruct c; simpl; [auto | discriminate]. Qed.

(** ** Schema version *)

(** C4. Opening a plan file whose [Version] is not [dataSchemaVersion],
    which is 0, fails with [SchemaVersionMismatch]: the result carries no
    plan, whatever the rest of the file holds. *)
Theorem C4_version_mismatch_rejected (headerSize : Z) (pf : PlanFile) :
  Version (pfHeader pf) <> dataSchemaVersion ->
  dataSchemaVersion = 0 /\
  openPlan headerSize pf = Err SchemaVersionMismatch /\
  is_ok (openPlan headerSize pf) = false.
Proof.
  intros Hv. split; [reflexivity|].
  assert (Hopen : openPlan headerSize pf = Err SchemaVersionMismatch).
  { unfold openPlan.
    destruct (Z.eqb_spec (Version (pfHeader pf)) dataSchemaVersion) as [He|_];
      [contradiction | reflexivity]. }
  now rewrite Hopen.
Qed.

Lemma C4_version_mismatch_rejected_witness :
  openPlan (sizeofHeader sampleImports)
    (mkPlanFile (withVersion sampleHeader 1) [sampleTransfer; sampleTransfer]
                (repeat 0 20)) = Err SchemaVersionMismatch.
Proof.
  apply (C4_version_mismatch_rejected (sizeofHeader sampleImports)
           (mkPlanFile (withVersion sampleHeader 1)
                       [sampleTransfer; sampleTransfer] (repeat 0 20))).
  simpl. unfold dataSchemaVersion. lia.
Defined.

(** ** Priorities *)

(** C5. The priorities are [HighJobPriority] = 0, [MediumJobPriority] = 1
    and [LowJobPriority] = 2, and [DefaultJobPriority] is [HighJobPriority].
    The mapping to channels gives each of the three a channel of its own,
    and [CorruptPlan] for every other value. *)
Theorem C5_priorities (p : Z) :
  HighJobPriority = 0 /\ MediumJobPriority = 1 /\ LowJobPriority = 2 /\
  DefaultJobPriority = HighJobPriority /\ DefaultJobPriority = 0 /\
  priorityChannel HighJobPriority = Ok HighChannel /\
  priorityChannel MediumJobPriority = Ok MediumChannel /\
  priorityChannel LowJobPriority = Ok LowChannel /\
  (In p [HighJobPriority; MediumJobPriority; LowJobPriority] ->
   exists c : Channel, priorityChannel p = Ok c) /\
  (~ In p [HighJobPriority; MediumJobPriority; LowJobPriority] ->
   priorityChannel p = Err CorruptPlan).
Proof.
  repeat (split; [reflexivity|]). split.
  - simpl. intros [<-|[<-|[<-|[]]]]; eexists; reflexivity.
  - simpl. intros Hn. unfold priorityChannel.
    destruct (Z.eqb_spec p HighJobPriority); [intuition congruence|].
    destruct (Z.eqb_spec p MediumJobPriority); [intuition congruence|].
    destruct (Z.eqb_spec p LowJobPriority); [intuition congruence|].
    reflexivity.
Qed.

Lemma C5_priorities_witness :
  priorityChannel 3 = Err CorruptPlan /\
  exists c : Channel, priorityChannel (Priority sampleHeader) = Ok c.
Proof.
  split.
  - apply (C5_priorities 3). simpl.
    unfold HighJobPriority, MediumJobPriority, LowJobPriority. lia.
  - apply (C5_priorities (Priority sampleHeader)). simpl. tauto.
Defined.

(** ** Lengths *)

Lemma len_nonneg {A : Type} (l : list A) : 0 <= len l.
Proof. unfold len. lia. Qed.

Lemma len_nil {A : Type} : len (@nil A) = 0.
Proof. reflexivity. Qed.

Lemma len_cons {A : Type} (x : A) (l : list A) : len (x :: l) = len l + 1.
Proof. unfold len. simpl. lia. Qed.

Lemma len_app {A : Type} (l1 l2 : list A) : len (l1 ++ l2) = len l1 + len l2.
Proof. unfold len. rewrite length_app. lia. Qed.

Lemma len_repeat {A : Type} (x : A) (n : Z) : 0 <= n -> len (repeat x (Z.to_nat n)) = n.
Proof. intros Hn. unfold len. rewrite repeat_length. lia. Qed.

Lemma to_nat_len {A : Type} (l : list A) : Z.to_nat (len l) = List.length l.
Proof. unfold len. lia. Qed.

(** ** The blob-data block *)

Lemma fillBuffer_len (cap : Z) (bs : list Z) :
  len bs <= cap -> len (fillBuffer cap bs) = cap.
Proof.
  intros Hle. unfold fillBuffer. rewrite len_app, len_repeat; lia.
Qed.

Lemma newBlobData_ok (ct ce md : list Z) (bs : Z) (b : JobPartPlanBlobData) :
  newBlobData ct ce md bs = Ok b ->
  len ct <= MAX_SIZE_CONTENT_TYPE /\
  len ce <= MAX_SIZE_CONTENT_ENCODING /\
  len md <= MAX_SIZE_META_DATA /\
  b = mkBlobData (uint8 (len ct)) (fillBuffer MAX_SIZE_CONTENT_TYPE ct)
                 (uint8 (len ce)) (fillBuffer MAX_SIZE_CONTENT_ENCODING ce)
                 (uint16 (len md)) (fillBuffer MAX_SIZE_META_DATA md)
                 (uint64 bs).
Proof.
  unfold newBlobData. intros H.
  apply bind_check_ok in H as [H1 H]. apply bind_check_ok in H as [H2 H].
  apply bind_check_ok in H as [H3 H].
  apply Z.leb_le in H1, H2, H3. injection H as <-. auto.
Qed.

Lemma newBlobData_accepts (ct ce md : list Z) (bs : Z) :
  len ct <= MAX_SIZE_CONTENT_TYPE ->
  len ce <= MAX_SIZE_CONTENT_ENCODING ->
  len md <= MAX_SIZE_META_DATA ->
  is_ok (newBlobData ct ce md bs) = true.
Proof.
  intros H1 H2 H3. apply Z.leb_le in H1, H2, H3.
  unfold newBlobData. now rewrite H1, H2, H3.
Qed.

Lemma newBlobData_rejects (ct ce md : list Z) (bs : Z) :
  MAX_SIZE_CONTENT_TYPE < len ct \/
  MAX_SIZE_CONTENT_ENCODING < len ce \/
  MAX_SIZE_META_DATA < len md ->
  newBlobData ct ce md bs = Err CorruptPlan.
Proof.
  intros H. unfold newBlobData.
  destruct (Z.leb_spec (len ct) MAX_SIZE_CONTENT_TYPE); [|reflexivity].
  destruct (Z.leb_spec (len ce) MAX_SIZE_CONTENT_ENCODING); [|reflexivity].
  destruct (Z.leb_spec (len md) MAX_SIZE_META_DATA); [|reflexivity].
  lia.
Qed.

(** C6. The buffers of [JobPartPlanBlobData] hold 256, 256 and 1000 bytes
    and the capacity constants are these array sizes.  The two 8-bit
    lengths of a block are below 256 by their type.  Construction checks
    the three lengths: it fails with [CorruptPlan] when one is above its
    capacity, and in a block it returns no length field is above its
    capacity.  Opening a plan does not look at the block. *)
Theorem C6_blob_capacities (headerSize : Z) (pf : PlanFile)
  (ct ce md : list Z) (bs : Z) (b b' : JobPartPlanBlobData) :
  (MAX_SIZE_CONTENT_TYPE = 256 /\ MAX_SIZE_CONTENT_ENCODING = 256 /\
   MAX_SIZE_META_DATA = 1000) /\
  (array_len "ContentType" JobPartPlanBlobData_fields =
   Some MAX_SIZE_CONTENT_TYPE /\
   array_len "ContentEncoding" JobPartPlanBlobData_fields =
   Some MAX_SIZE_CONTENT_ENCODING /\
   array_len "MetaData" JobPartPlanBlobData_fields =
   Some MAX_SIZE_META_DATA) /\
  (wt_BlobData b ->
   ContentTypeLength b < MAX_SIZE_CONTENT_TYPE /\
   ContentEncodingLength b < MAX_SIZE_CONTENT_ENCODING /\
   len (ContentType b) = MAX_SIZE_CONTENT_TYPE /\
   len (ContentEncoding b) = MAX_SIZE_CONTENT_ENCODING /\
   len (MetaData b) = MAX_SIZE_META_DATA) /\
  (newBlobData ct ce md bs = Ok b ->
   ContentTypeLength b <= MAX_SIZE_CONTENT_TYPE /\
   ContentEncodingLength b <= MAX_SIZE_CONTENT_ENCODING /\
   MetaDataLength b <= MAX_SIZE_META_DATA /\
   MetaDataLength b = len md /\
   len (ContentType b) = MAX_SIZE_CONTENT_TYPE /\
   len (ContentEncoding b) = MAX_SIZE_CONTENT_ENCODING /\
   len (MetaData b) = MAX_SIZE_META_DATA) /\
  (MAX_SIZE_CONTENT_TYPE < len ct \/
   MAX_SIZE_CONTENT_ENCODING < len ce \/
   MAX_SIZE_META_DATA < len md ->
   newBlobData ct ce md bs = Err CorruptPlan) /\
  (len ct <= MAX_SIZE_CONTENT_TYPE ->
   len ce <= MAX_SIZE_CONTENT_ENCODING ->
   len md <= MAX_SIZE_META_DATA ->
   is_ok (newBlobData ct ce md bs) = true) /\
  is_ok (openPlan headerSize (mkPlanFile (withBlobData (pfHeader pf) b')
                                  (pfTransfers pf) (pfPool pf))) =
  is_ok (openPlan headerSize pf).
Proof.
  split; [repeat split|]. split; [repeat split|].
  split; [|split; [|split; [|split]]].
  - intros (Hct & [Hbt _] & Hce & [Hbe _] & _ & [Hbm _] & _).
    rewrite is_uint8_bounds in Hct, Hce.
    unfold MAX_SIZE_CONTENT_TYPE, MAX_SIZE_CONTENT_ENCODING,
      MAX_SIZE_META_DATA.
    repeat split; solve [lia | assumption].
  - intros Hnew. apply newBlobData_ok in Hnew as (H1 & H2 & H3 & ->). simpl.
    pose proof (uint8_range (len ct)) as Rt.
    pose proof (uint8_range (len ce)) as Re.
    rewrite is_uint8_bounds in Rt, Re.
    assert (Hmd : uint16 (len md) = len md).
    { apply uint16_small. rewrite is_uint16_bounds.
      pose proof (len_nonneg md). unfold MAX_SIZE_META_DATA in H3. lia. }
    rewrite Hmd, !fillBuffer_len by assumption.
    unfold MAX_SIZE_CONTENT_TYPE, MAX_SIZE_CONTENT_ENCODING in *.
    repeat split; lia.
  - apply newBlobData_rejects.
  - apply newBlobData_accepts.
  - destruct pf as [h ts pool]. unfold openPlan, fileSize. cbn [pfHeader pfTransfers pfPool withBlobData Version NumTransfers].
    destruct (Version h =? dataSchemaVersion); [|reflexivity].
    destruct (NumTransfers h =? len ts); [|reflexivity].
    now destruct (forallb _ ts).
Qed.

Lemma C6_blob_capacities_witness :
  newBlobData (repeat 0 257) [] (repeat 0 1001) 0 = Err CorruptPlan /\
  is_ok (newBlobData [97; 98] [] [99] 0) = true /\
  ContentTypeLength sampleBlobData < MAX_SIZE_CONTENT_TYPE.
Proof.
  destruct (C6_blob_capacities (sizeofHeader sampleImports) (mkPlanFile sampleHeader [] [])
              (repeat 0 257) [] (repeat 0 1001) 0
              sampleBlobData sampleBlobData) as (_ & _ & Hwt & _ & Hrej & _).
  destruct (C6_blob_capacities (sizeofHeader sampleImports) (mkPlanFile sampleHeader [] [])
              [97; 98] [] [99] 0
              sampleBlobData sampleBlobData) as (_ & _ & _ & _ & _ & Hacc & _).
  split; [|split].
  - apply Hrej. left. unfold len. rewrite repeat_length.
    unfold MAX_SIZE_CONTENT_TYPE. lia.
  - apply Hacc; unfold len, MAX_SIZE_CONTENT_TYPE, MAX_SIZE_CONTENT_ENCODING,
      MAX_SIZE_META_DATA; simpl; lia.
  - apply Hwt. unfold wt_BlobData, is_bytes, sampleBlobData, len.
    cbn [ContentTypeLength ContentType ContentEncodingLength ContentEncoding
         MetaDataLength MetaData BlockSize].
    rewrite !repeat_length, !is_uint8_bounds, is_uint16_bounds,
      is_uint64_bounds.
    assert (Hz : forall n, Forall is_uint8 (repeat 0 n)).
    { intros n. apply Forall_forall. intros x Hx.
      apply repeat_spec in Hx. subst x. rewrite is_uint8_bounds. lia. }
    repeat split; solve [lia | apply Hz].
Defined.

(** ** Sizes of the structs *)

Lemma align_up_ge (off a : Z) : 0 < a -> off <= align_up off a.
Proof.
  intros Ha. unfold align_up.
  pose proof (Z.div_mod (off + a - 1) a ltac:(lia)) as Hdm.
  pose proof (Z.mod_pos_bound (off + a - 1) a Ha) as Hm.
  nia.
Qed.

Lemma struct_end_ge (fields : list (string * layout)) (off : Z) :
  Forall (fun f => wf_layout (snd f)) fields ->
  off + fields_size fields <= struct_end off fields.
Proof.
  revert off. induction fields as [|[n l] rest IH]; intros off Hwf.
  - simpl. lia.
  - inversion Hwf as [|? ? [Hs Ha] Hrest]; subst. simpl in *.
    pose proof (align_up_ge off (align l) Ha).
    specialize (IH (align_up off (align l) + size l) Hrest). lia.
Qed.

Lemma fields_size_nonneg (fields : list (string * layout)) :
  Forall (fun f => wf_layout (snd f)) fields -> 0 <= fields_size fields.
Proof.
  induction 1 as [|[n l] rest [Hs _] _ IH]; simpl in *; lia.
Qed.

Lemma struct_align_pos (fields : list (string * layout)) :
  0 < struct_align fields.
Proof.
  unfold struct_align. induction fields as [|f rest IH]; simpl; lia.
Qed.

Lemma t_struct_size_ge (fields : list (string * layout)) :
  Forall (fun f => wf_layout (snd f)) fields ->
  fields_size fields <= size (t_struct fields).
Proof.
  intros Hwf. simpl.
  pose proof (struct_end_ge fields 0 Hwf).
  pose proof (align_up_ge (struct_end 0 fields) (struct_align fields)
                (struct_align_pos fields)).
  lia.
Qed.

Lemma sizeofTransfer_value : sizeofTransfer = 48.
Proof. reflexivity. Qed.

Lemma sizeofBlobData_value : size JobPartPlanBlobData_t = 1528.
Proof. reflexivity. Qed.

Example transferStatus_offset :
  field_offset "transferStatus" 0 JobPartPlanTransfer_fields = Some 40.
Proof. reflexivity. Qed.

Example jobStatus_offset_sample :
  field_offset "jobStatus" 0 (JobPartPlanHeader_fields sampleImports) =
  Some 1576 /\ sizeofHeader sampleImports = 1584.
Proof. split; reflexivity. Qed.

Lemma JobPartPlanHeader_fields_wf (imp : Imports) :
  wf_Imports imp ->
  Forall (fun f => wf_layout (snd f)) (JobPartPlanHeader_fields imp).
Proof.
  intros (Hid & Hloc & Hlog).
  unfold JobPartPlanHeader_fields.
  repeat (apply Forall_cons;
          [first [assumption | (split; simpl; vm_compute; congruence)]|]).
  apply Forall_nil.
Qed.

Lemma sizeofHeader_pos (imp : Imports) : wf_Imports imp -> 0 < sizeofHeader imp.
Proof.
  intros Hwf.
  pose proof (t_struct_size_ge _ (JobPartPlanHeader_fields_wf imp Hwf)) as Hge.
  destruct Hwf as ([Hid _] & [Hloc _] & [Hlog _]).
  unfold sizeofHeader, JobPartPlanHeader_t.
  unfold fields_size in Hge. unfold JobPartPlanHeader_fields in Hge at 1.
  cbn [fold_right snd] in Hge.
  rewrite sizeofBlobData_value in Hge.
  change (size t_uint32) with 4 in Hge.
  change (size t_uint8) with 1 in Hge.
  change (size t_bool) with 1 in Hge.
  lia.
Qed.

(** ** The layout builder *)

Lemma poolOf_cons_len (i : TransferInput) (rest : list TransferInput) :
  len (poolOf (i :: rest)) = stringsLength i + len (poolOf rest).
Proof.
  unfold stringsLength. simpl. now rewrite !len_app.
Qed.

Lemma layoutTransfers_len (status : Z) (inputs : list TransferInput) (off : Z) :
  len (layoutTransfers status off inputs) = len inputs.
Proof.
  revert off. induction inputs as [|i rest IH]; intros off; [reflexivity|].
  simpl. now rewrite !len_cons, IH.
Qed.

Lemma layoutTransfers_wt (status : Z) (inputs : list TransferInput) (off : Z) :
  is_uint32 status ->
  Forall wt_Transfer (layoutTransfers status off inputs).
Proof.
  intros Hst. revert off.
  induction inputs as [|i rest IH]; intros off; simpl; constructor.
  - unfold wt_Transfer. simpl.
    refine (conj (uint64_range _) (conj (uint16_range _) (conj (uint16_range _)
             (conj (uint16_range _) (conj (uint32_range _)
             (conj (uint64_range _) (conj _ Hst))))))).
    rewrite is_uint64_bounds. lia.
  - apply IH.
Qed.

Lemma layoutTransfers_bounds (status : Z) (inputs : list TransferInput) :
  forall off : Z,
    0 <= off ->
    Forall fitsTransferInput inputs ->
    is_uint64 (off + len (poolOf inputs)) ->
    Forall (fun t => off <= Offset t /\
                     Offset t + SrcLength t + DstLength t <=
                     off + len (poolOf inputs))
           (layoutTransfers status off inputs).
Proof.
  induction inputs as [|i rest IH]; intros off Hoff Hfit Hsize.
  - constructor.
  - inversion Hfit as [|? ? [Hs Hd] Hrest]; subst.
    rewrite poolOf_cons_len in *. unfold stringsLength in *.
    pose proof (len_nonneg (tiSource i)).
    pose proof (len_nonneg (tiDestination i)).
    pose proof (len_nonneg (poolOf rest)).
    rewrite is_uint64_bounds in Hsize.
    simpl. constructor.
    + simpl. rewrite (uint16_small _ Hs), (uint16_small _ Hd).
      rewrite uint64_small by (rewrite is_uint64_bounds; lia). lia.
    + refine (Forall_impl _ _ (IH _ _ Hrest _)).
      * intros t [Hlo Hhi]. unfold stringsLength in *. lia.
      * unfold stringsLength. lia.
      * rewrite is_uint64_bounds. unfold stringsLength. lia.
Qed.

Lemma firstn_skipn_middle (a b c : list Z) :
  firstn (List.length b) (skipn (List.length a) (a ++ b ++ c)) = b.
Proof.
  rewrite skipn_app, skipn_all, Nat.sub_diag. simpl.
  rewrite firstn_app, firstn_all, Nat.sub_diag. simpl. apply app_nil_r.
Qed.

Lemma layoutTransfers_resolves (status start : Z) (inputs : list TransferInput) :
  forall prefix : list Z,
    0 <= start ->
    Forall fitsTransferInput inputs ->
    is_uint64 (start + len prefix + len (poolOf inputs)) ->
    Forall2 (fun i t =>
               firstn (Z.to_nat (SrcLength t))
                      (skipn (Z.to_nat (Offset t - start))
                             (prefix ++ poolOf inputs)) = tiSource i /\
               firstn (Z.to_nat (DstLength t))
                      (skipn (Z.to_nat (Offset t + SrcLength t - start))
                             (prefix ++ poolOf inputs)) = tiDestination i)
            inputs (layoutTransfers status (start + len prefix) inputs).
Proof.
  induction inputs as [|i rest IH]; intros prefix Hstart Hfit Hsize.
  - constructor.
  - inversion Hfit as [|? ? [Hs Hd] Hrest]; subst.
    rewrite poolOf_cons_len in Hsize. unfold stringsLength in Hsize.
    pose proof (len_nonneg (tiSource i)).
    pose proof (len_nonneg (tiDestination i)).
    pose proof (len_nonneg (poolOf rest)).
    pose proof (len_nonneg prefix).
    rewrite is_uint64_bounds in Hsize.
    simpl. constructor.
    + simpl. rewrite (uint16_small _ Hs), (uint16_small _ Hd).
      rewrite uint64_small by (rewrite is_uint64_bounds; lia).
      rewrite !to_nat_len. split.
      * replace (Z.to_nat (start + len prefix - start))
          with (List.length prefix) by (unfold len; lia).
        rewrite <- app_assoc. apply firstn_skipn_middle.
      * replace (Z.to_nat (start + len prefix + len (tiSource i) - start))
          with (List.length (prefix ++ tiSource i))
          by (rewrite length_app; unfold len; lia).
        replace (prefix ++ (tiSource i ++ tiDestination i) ++ poolOf rest)
          with ((prefix ++ tiSource i) ++ tiDestination i ++ poolOf rest)
          by (now rewrite <- !app_assoc).
        apply firstn_skipn_middle.
    + specialize (IH (prefix ++ tiSource i ++ tiDestination i) Hstart Hrest).
      rewrite !len_app in IH.
      replace (start + (len prefix + (len (tiSource i) + len (tiDestination i))))
        with (start + len prefix + stringsLength i) in IH
        by (unfold stringsLength; lia).
      rewrite <- !app_assoc in IH. rewrite <- !app_assoc.
      apply IH. rewrite is_uint64_bounds. unfold stringsLength. lia.
Qed.

(** ** The reader *)

Lemma transferInBounds_spec (start total : Z) (t : JobPartPlanTransfer) :
  transferInBounds start total t = true <->
  start <= Offset t /\ Offset t + SrcLength t + DstLength t <= total.
Proof.
  unfold transferInBounds. now rewrite andb_true_iff, !Z.leb_le.
Qed.

Lemma forallb_transferInBounds (start total : Z) (ts : list JobPartPlanTransfer) :
  forallb (transferInBounds start total) ts = true <->
  Forall (fun t => start <= Offset t /\
                   Offset t + SrcLength t + DstLength t <= total) ts.
Proof.
  rewrite forallb_forall, Forall_forall.
  split; intros H t Ht; apply transferInBounds_spec, H, Ht.
Qed.

Lemma openPlan_ok (hs : Z) (pf v : PlanFile) :
  openPlan hs pf = Ok v ->
  v = pf /\
  Version (pfHeader pf) = dataSchemaVersion /\
  NumTransfers (pfHeader pf) = len (pfTransfers pf) /\
  Forall (fun t => poolStart hs (NumTransfers (pfHeader pf)) <= Offset t /\
                   Offset t + SrcLength t + DstLength t <= fileSize hs pf)
         (pfTransfers pf).
Proof.
  unfold openPlan. intros H.
  apply bind_check_ok in H as [Hv H]. apply bind_check_ok in H as [Hn H].
  apply bind_check_ok in H as [Hb H].
  apply Z.eqb_eq in Hv, Hn. apply forallb_transferInBounds in Hb.
  injection H as <-. auto.
Qed.

Lemma openPlan_accepts (hs : Z) (pf : PlanFile) :
  Version (pfHeader pf) = dataSchemaVersion ->
  NumTransfers (pfHeader pf) = len (pfTransfers pf) ->
  Forall (fun t => poolStart hs (NumTransfers (pfHeader pf)) <= Offset t /\
                   Offset t + SrcLength t + DstLength t <= fileSize hs pf)
         (pfTransfers pf) ->
  openPlan hs pf = Ok pf.
Proof.
  intros Hv Hn Hb.
  apply Z.eqb_eq in Hv, Hn. apply forallb_transferInBounds in Hb.
  unfold openPlan. now rewrite Hv, Hn, Hb.
Qed.

Lemma is_ok_true {A : Type} (r : result A) :
  is_ok r = true -> exists a : A, r = Ok a.
Proof. destruct r as [a|e]; [eauto | discriminate]. Qed.

(** ** The built plan *)

Lemma buildPlan_numTransfers (hs st : Z) (h : JobPartPlanHeader)
  (inputs : list TransferInput) :
  is_uint32 (len inputs) ->
  NumTransfers (pfHeader (fst (buildPlan hs st h inputs))) = len inputs /\
  len (pfTransfers (fst (buildPlan hs st h inputs))) = len inputs.
Proof.
  intros Hn. unfold buildPlan. cbn [fst snd pfHeader pfTransfers NumTransfers].
  split; [apply uint32_small, Hn | apply layoutTransfers_len].
Qed.

Lemma buildPlan_total (hs st : Z) (h : JobPartPlanHeader)
  (inputs : list TransferInput) :
  snd (buildPlan hs st h inputs) = fileSize hs (fst (buildPlan hs st h inputs)).
Proof.
  unfold fileSize, buildPlan. cbn [fst snd pfTransfers pfPool].
  now rewrite layoutTransfers_len.
Qed.

Lemma poolStart_nonneg (hs n : Z) : 0 <= hs -> 0 <= n -> 0 <= poolStart hs n.
Proof.
  intros Hhs Hn. unfold poolStart. rewrite sizeofTransfer_value. lia.
Qed.

Lemma buildPlan_bounds (hs st : Z) (h : JobPartPlanHeader)
  (inputs : list TransferInput) :
  0 <= hs ->
  Forall fitsTransferInput inputs ->
  is_uint64 (snd (buildPlan hs st h inputs)) ->
  Forall (fun t => poolStart hs (len inputs) <= Offset t /\
                   Offset t + SrcLength t + DstLength t <=
                   snd (buildPlan hs st h inputs))
         (pfTransfers (fst (buildPlan hs st h inputs))).
Proof.
  intros Hhs Hfit Hsize. unfold buildPlan in *.
  cbn [fst snd pfTransfers] in *.
  apply layoutTransfers_bounds; [|assumption|assumption].
  apply poolStart_nonneg; [assumption | apply len_nonneg].
Qed.

Lemma buildPlan_resolves (hs st : Z) (h : JobPartPlanHeader)
  (inputs : list TransferInput) :
  0 <= hs ->
  Forall fitsTransferInput inputs ->
  is_uint64 (snd (buildPlan hs st h inputs)) ->
  Forall2 (resolves hs (fst (buildPlan hs st h inputs))) inputs
          (pfTransfers (fst (buildPlan hs st h inputs))).
Proof.
  intros Hhs Hfit Hsize.
  pose proof (poolStart_nonneg hs (len inputs) Hhs (len_nonneg inputs))
    as Hstart.
  pose proof (layoutTransfers_resolves st (poolStart hs (len inputs))
                inputs [] Hstart Hfit) as Hres.
  rewrite len_nil, Z.add_0_r in Hres.
  unfold buildPlan in *. cbn [fst snd] in Hsize.
  specialize (Hres Hsize).
  unfold resolves, slice. cbn [fst snd pfTransfers pfPool].
  rewrite layoutTransfers_len.
  exact Hres.
Qed.

Lemma buildPlan_opens (hs st : Z) (h : JobPartPlanHeader)
  (inputs : list TransferInput) :
  0 <= hs ->
  Forall fitsTransferInput inputs ->
  is_uint32 (len inputs) ->
  is_uint64 (snd (buildPlan hs st h inputs)) ->
  openPlan hs (fst (buildPlan hs st h inputs)) =
  Ok (fst (buildPlan hs st h inputs)).
Proof.
  intros Hhs Hfit Hn Hsize.
  destruct (buildPlan_numTransfers hs st h inputs Hn) as [Hnum Hlen].
  apply openPlan_accepts.
  - reflexivity.
  - now rewrite Hnum, Hlen.
  - rewrite Hnum, <- buildPlan_total.
    apply buildPlan_bounds; assumption.
Qed.

(** C8. The header is the bytes from 0 up to its size; record [k] of the
    [NumTransfers] records is the bytes from the size of the header plus
    [k] records up to the size of the header plus [k + 1] records, so the
    records follow the header and one another without a gap; the string
    pool begins after the last record.  In a plan the builder lays out,
    every record has its [Offset] at or after the start of the pool and
    [Offset + SrcLength + DstLength] within the size of the file, and the
    two strings are where the record says; the reader accepts that plan,
    and accepts no plan in which a record breaks either bound. *)
Theorem C8_plan_layout (imp : Imports) (hs st : Z) (h : JobPartPlanHeader)
  (inputs : list TransferInput) (k : Z) (other : PlanFile) :
  wf_Imports imp ->
  hs = sizeofHeader imp ->
  Forall fitsTransferInput inputs ->
  is_uint32 (len inputs) ->
  is_uint64 (snd (buildPlan hs st h inputs)) ->
  let pf := fst (buildPlan hs st h inputs) in
  let total := snd (buildPlan hs st h inputs) in
  let n := NumTransfers (pfHeader pf) in
  (headerRegion hs = (0, hs) /\ 0 < hs) /\
  (0 <= k < n ->
   transferRegion hs k =
   (hs + k * sizeofTransfer, hs + (k + 1) * sizeofTransfer) /\
   snd (headerRegion hs) <= fst (transferRegion hs k) /\
   fst (transferRegion hs k) < snd (transferRegion hs k) /\
   snd (transferRegion hs k) = fst (transferRegion hs (k + 1)) /\
   snd (transferRegion hs k) <= poolStart hs n) /\
  (snd (headerRegion hs) = fst (transferRegion hs 0) /\
   poolStart hs n = hs + n * sizeofTransfer /\
   poolStart hs n = fst (transferRegion hs n) /\
   n = len (pfTransfers pf) /\
   n = len inputs /\
   total = fileSize hs pf) /\
  Forall (fun t => poolStart hs n <= Offset t /\
                   Offset t + SrcLength t + DstLength t <= total)
         (pfTransfers pf) /\
  Forall2 (resolves hs pf) inputs (pfTransfers pf) /\
  (is_uint32 st -> Forall wt_Transfer (pfTransfers pf)) /\
  openPlan hs pf = Ok pf /\
  (is_ok (openPlan hs other) = true ->
   NumTransfers (pfHeader other) = len (pfTransfers other) /\
   Forall (fun t => poolStart hs (NumTransfers (pfHeader other)) <= Offset t /\
                    Offset t + SrcLength t + DstLength t <= fileSize hs other)
          (pfTransfers other)).
Proof.
  intros Hwf Hhs Hfit Hn Hsize pf total n.
  assert (Hpos : 0 < hs) by (rewrite Hhs; apply sizeofHeader_pos, Hwf).
  destruct (buildPlan_numTransfers hs st h inputs Hn) as [Hnum Hlen].
  fold pf in Hnum, Hlen. fold n in Hnum.
  split; [split; [reflexivity | exact Hpos]|].
  split; [|split; [|split; [|split; [|split; [|split]]]]].
  - intros Hk. unfold transferRegion, headerRegion, poolStart.
    cbn [fst snd]. rewrite sizeofTransfer_value.
    repeat split; try reflexivity; nia.
  - unfold transferRegion, headerRegion, poolStart. cbn [fst snd].
    repeat split; try lia.
    apply buildPlan_total.
  - rewrite Hnum. apply buildPlan_bounds; [lia | assumption | assumption].
  - apply buildPlan_resolves; [lia | assumption | assumption].
  - intros Hst. apply layoutTransfers_wt, Hst.
  - apply buildPlan_opens; [lia | assumption | assumption | assumption].
  - intros Hok. apply is_ok_true in Hok as [v Hv].
    apply openPlan_ok in Hv as (_ & _ & Hnt & Hb). split; assumption.
Qed.

Lemma C8_plan_layout_witness :
  openPlan 1584 (fst (buildPlan 1584 0 sampleHeader sampleInputs)) =
  Ok (fst (buildPlan 1584 0 sampleHeader sampleInputs)) /\
  Forall2 (resolves 1584 (fst (buildPlan 1584 0 sampleHeader sampleInputs)))
          sampleInputs
          (pfTransfers (fst (buildPlan 1584 0 sampleHeader sampleInputs))) /\
  transferRegion 1584 1 = (1632, 1680).
Proof.
  destruct (C8_plan_layout sampleImports 1584 0 sampleHeader sampleInputs 1
              (mkPlanFile sampleHeader [] []))
    as (_ & Hregion & _ & _ & Hres & _ & Hopen & _).
  - unfold wf_Imports, wf_layout, sampleImports. simpl. lia.
  - reflexivity.
  - unfold sampleInputs, fitsTransferInput.
    repeat (apply Forall_cons;
            [simpl; rewrite !is_uint16_bounds; unfold len; simpl; lia|]).
    apply Forall_nil.
  - rewrite is_uint32_bounds. unfold len. simpl. lia.
  - rewrite is_uint64_bounds. vm_compute. split; congruence.
  - split; [exact Hopen | split; [exact Hres|]].
    apply Hregion. vm_compute. split; congruence.
Defined.

(** * Further properties of the status codes and accessors *)

Lemma JobStatusCode_String_code (s : Z) :
  In s JobStatusCodes ->
  JobStatusCode_String s <> "InvalidStatusCode"%string /\
  (s = JobInProgress /\ JobStatusCode_String s = "JobInProgress"%string \/
   s = JobPaused /\ JobStatusCode_String s = "JobPaused"%string \/
   s = JobCancelled /\ JobStatusCode_String s = "JobCancelled"%string \/
   s = JobCompleted /\ JobStatusCode_String s = "JobCompleted"%string).
Proof.
  unfold JobStatusCodes.
  intros [<-|[<-|[<-|[<-|[]]]]]; (split; [discriminate|]);
    [left | right; left | right; right; left | right; right; right];
    split; reflexivity.
Qed.

(** X1. [String] tells the job status codes apart: two 32-bit values are
    rendered alike exactly when they are the same value or when neither
    is one of the four declared codes, and a value is rendered as
    ["InvalidStatusCode"] exactly when it is none of the four. *)
Theorem X1_String_separates_codes (a b : Z) :
  is_uint32 a -> is_uint32 b ->
  (JobStatusCode_String a = JobStatusCode_String b <->
   a = b \/ (~ In a JobStatusCodes /\ ~ In b JobStatusCodes)) /\
  (JobStatusCode_String a = "InvalidStatusCode"%string <->
   ~ In a JobStatusCodes).
Proof.
  intros Ha Hb.
  assert (Hinv : forall s, is_uint32 s ->
            (JobStatusCode_String s = "InvalidStatusCode"%string <->
             ~ In s JobStatusCodes)).
  { intros s Hs. split.
    - intros Hstr Hin. now apply JobStatusCode_String_code in Hin as [Hne _].
    - intros Hn. apply JobStatusCode_String_invalid.
      now rewrite (uint32_small s Hs). }
  split; [|apply Hinv, Ha]. split.
  - intros Heq.
    destruct (in_dec Z.eq_dec a JobStatusCodes) as [Hia|Hna];
      destruct (in_dec Z.eq_dec b JobStatusCodes) as [Hib|Hnb].
    + left.
      apply JobStatusCode_String_code in Hia as [_ Hia].
      apply JobStatusCode_String_code in Hib as [_ Hib].
      destruct Hia as [[-> Sa]|[[-> Sa]|[[-> Sa]|[-> Sa]]]];
        destruct Hib as [[-> Sb]|[[-> Sb]|[[-> Sb]|[-> Sb]]]];
        try reflexivity; rewrite Sa, Sb in Heq; discriminate Heq.
    + exfalso. apply (Hinv b Hb) in Hnb. rewrite Hnb in Heq.
      now apply JobStatusCode_String_code in Hia as [Hne _].
    + exfalso. apply (Hinv a Ha) in Hna. rewrite Hna in Heq.
      apply JobStatusCode_String_code in Hib as [Hne _].
      apply Hne. symmetry. exact Heq.
    + right. split; assumption.
  - intros [->|[Hna Hnb]]; [reflexivity|].
    apply (Hinv a Ha) in Hna. apply (Hinv b Hb) in Hnb. congruence.
Qed.

Lemma X1_String_separates_codes_witness :
  JobStatusCode_String 4 = JobStatusCode_String 4294967295 /\
  JobStatusCode_String JobPaused <> "InvalidStatusCode"%string.
Proof.
  destruct (X1_String_separates_codes 4 4294967295) as [Heq _].
  - rewrite is_uint32_bounds. lia.
  - rewrite is_uint32_bounds. lia.
  - destruct (X1_String_separates_codes JobPaused JobPaused) as [_ Hinv].
    + rewrite is_uint32_bounds. unfold JobPaused. lia.
    + rewrite is_uint32_bounds. unfold JobPaused. lia.
    + split.
      * apply Heq. right. rewrite !JobStatusCodes_bounds. lia.
      * intros Hs. apply Hinv in Hs. apply Hs.
        rewrite JobStatusCodes_bounds. unfold JobPaused. lia.
Defined.

(** ** Writes that follow one another *)

Lemma setJobStatus_twice (h : JobPartPlanHeader) (a b : Z) :
  setJobStatus (setJobStatus h a) b = setJobStatus h b.
Proof. reflexivity. Qed.

Lemma setTransferStatus_twice (t : JobPartPlanTransfer) (a b : Z) :
  setTransferStatus (setTransferStatus t a) b = setTransferStatus t b.
Proof. reflexivity. Qed.

(** X2. Any sequence of [setJobStatus] calls that is not empty leaves the
    header exactly as the last call alone would: the whole header, not
    only the status read back, is that of one write of the last status. *)
Theorem X2_setJobStatus_run_collapses (h : JobPartPlanHeader) (ss : list Z)
  (d : Z) :
  ss <> [] ->
  fold_left setJobStatus ss h = setJobStatus h (last ss d).
Proof.
  intros Hne. destruct ss as [|s ss]; [contradiction|]. clear Hne.
  revert h s. induction ss as [|x ss IH]; intros h s; [reflexivity|].
  change (fold_left setJobStatus (x :: ss) (setJobStatus h s) =
          setJobStatus h (last (x :: ss) d)).
  rewrite IH. apply setJobStatus_twice.
Qed.

Lemma X2_setJobStatus_run_collapses_witness :
  fold_left setJobStatus [JobPaused; JobInProgress; JobCancelled] sampleHeader =
  setJobStatus sampleHeader JobCancelled.
Proof.
  apply (X2_setJobStatus_run_collapses sampleHeader
           [JobPaused; JobInProgress; JobCancelled] 0).
  discriminate.
Defined.

(** X3. Any sequence of [setTransferStatus] calls that is not empty leaves
    the transfer record exactly as the last call alone would. *)
Theorem X3_setTransferStatus_run_collapses (t : JobPartPlanTransfer)
  (ss : list Z) (d : Z) :
  ss <> [] ->
  fold_left setTransferStatus ss t = setTransferStatus t (last ss d).
Proof.
  intros Hne. destruct ss as [|s ss]; [contradiction|]. clear Hne.
  revert t s. induction ss as [|x ss IH]; intros t s; [reflexivity|].
  change (fold_left setTransferStatus (x :: ss) (setTransferStatus t s) =
          setTransferStatus t (last (x :: ss) d)).
  rewrite IH. apply setTransferStatus_twice.
Qed.

Lemma X3_setTransferStatus_run_collapses_witness :
  fold_left setTransferStatus [1; 0; 2] sampleTransfer =
  setTransferStatus sampleTransfer 2.
Proof.
  apply (X3_setTransferStatus_run_collapses sampleTransfer [1; 0; 2] 0).
  discriminate.
Defined.

(** ** Writing back what was read *)

Lemma setJobStatus_small (h : JobPartPlanHeader) (s : Z) :
  is_uint32 s -> setJobStatus h s = assign jobStatus_ptr h s.
Proof.
  intros Hs. unfold setJobStatus, atomic.StoreUint32.
  now rewrite uint32_idem, (uint32_small s Hs).
Qed.

Lemma setTransferStatus_small (t : JobPartPlanTransfer) (s : Z) :
  is_uint32 s -> setTransferStatus t s = assign transferStatus_ptr t s.
Proof.
  intros Hs. unfold setTransferStatus, atomic.StoreUint32.
  now rewrite uint32_idem, (uint32_small s Hs).
Qed.

(** X4. Writing back the status just read changes nothing: on a header
    (a transfer record) whose status word is a 32-bit value, the setter
    applied to what the getter returns gives the same header (record)
    back.  And a status read from one header (record) and written to
    another is read back from that one unchanged. *)
Theorem X4_status_write_back (h h' : JobPartPlanHeader)
  (t t' : JobPartPlanTransfer) :
  is_uint32 (jobStatus h) ->
  is_uint32 (transferStatus t) ->
  setJobStatus h (getJobStatus h) = h /\
  setTransferStatus t (getTransferStatus t) = t /\
  getJobStatus (setJobStatus h (getJobStatus h')) = getJobStatus h' /\
  getTransferStatus (setTransferStatus t (getTransferStatus t')) =
  getTransferStatus t'.
Proof.
  intros Hh Ht. split; [|split; [|split]].
  - rewrite getJobStatus_word, (uint32_small _ Hh), (setJobStatus_small h _ Hh).
    now destruct h.
  - rewrite getTransferStatus_word, (uint32_small _ Ht),
      (setTransferStatus_small t _ Ht).
    now destruct t.
  - rewrite getJobStatus_setJobStatus, getJobStatus_word. apply uint32_idem.
  - rewrite getTransferStatus_setTransferStatus, getTransferStatus_word.
    apply uint32_idem.
Qed.

Lemma X4_status_write_back_witness :
  setJobStatus sampleHeader (getJobStatus sampleHeader) = sampleHeader /\
  setTransferStatus sampleTransfer (getTransferStatus sampleTransfer) =
  sampleTransfer.
Proof.
  destruct (X4_status_write_back sampleHeader sampleHeader
              sampleTransfer sampleTransfer) as (Hj & Ht & _).
  - rewrite is_uint32_bounds. simpl. unfold JobInProgress. lia.
  - rewrite is_uint32_bounds. simpl. lia.
  - split; [exact Hj | exact Ht].
Defined.

(** ** The length fields and the capacities *)

(** X5. The types of the length fields do not match the capacities.  An
    8-bit [ContentTypeLength] or [ContentEncodingLength] is never equal to
    the capacity 256 of its buffer, so no block records a buffer that is
    full; the 16-bit [MetaDataLength] is not bounded by the capacity 1000:
    every block has a twin, equal to it in every other field and as well
    typed, whose [MetaDataLength] is above [MAX_SIZE_META_DATA]. *)
Theorem X5_length_types_and_capacities (b : JobPartPlanBlobData) :
  wt_BlobData b ->
  ContentTypeLength b <> MAX_SIZE_CONTENT_TYPE /\
  ContentEncodingLength b <> MAX_SIZE_CONTENT_ENCODING /\
  exists b' : JobPartPlanBlobData,
    wt_BlobData b' /\
    MAX_SIZE_META_DATA < MetaDataLength b' /\
    ContentTypeLength b' = ContentTypeLength b /\
    ContentType b' = ContentType b /\
    ContentEncodingLength b' = ContentEncodingLength b /\
    ContentEncoding b' = ContentEncoding b /\
    MetaData b' = MetaData b /\
    BlockSize b' = BlockSize b.
Proof.
  intros (Hct & Hbt & Hce & Hbe & Hmd & Hbm & Hbs).
  pose proof Hct as Rt. pose proof Hce as Re.
  rewrite is_uint8_bounds in Rt, Re.
  unfold MAX_SIZE_CONTENT_TYPE, MAX_SIZE_CONTENT_ENCODING, MAX_SIZE_META_DATA.
  split; [lia|]. split; [lia|].
  exists (mkBlobData (ContentTypeLength b) (ContentType b)
                     (ContentEncodingLength b) (ContentEncoding b)
                     65535 (MetaData b) (BlockSize b)).
  split.
  - refine (conj Hct (conj Hbt (conj Hce (conj Hbe (conj _ (conj Hbm Hbs)))))).
    cbn [MetaDataLength]. rewrite is_uint16_bounds. lia.
  - cbn [MetaDataLength ContentTypeLength ContentType ContentEncodingLength
         ContentEncoding MetaData BlockSize].
    repeat split; reflexivity.
Qed.

Lemma sampleBlobData_wt : wt_BlobData sampleBlobData.
Proof.
  unfold wt_BlobData, is_bytes, sampleBlobData, len.
  cbn [ContentTypeLength ContentType ContentEncodingLength ContentEncoding
       MetaDataLength MetaData BlockSize].
  rewrite !repeat_length, !is_uint8_bounds, is_uint16_bounds,
    is_uint64_bounds.
  assert (Hz : forall n, Forall is_uint8 (repeat 0 n)).
  { intros n. apply Forall_forall. intros x Hx.
    apply repeat_spec in Hx. subst x. rewrite is_uint8_bounds. lia. }
  repeat split; solve [lia | apply Hz].
Qed.

Lemma X5_length_types_and_capacities_witness :
  ContentTypeLength sampleBlobData <> MAX_SIZE_CONTENT_TYPE /\
  exists b' : JobPartPlanBlobData,
    wt_BlobData b' /\ MAX_SIZE_META_DATA < MetaDataLength b'.
Proof.
  destruct (X5_length_types_and_capacities sampleBlobData sampleBlobData_wt)
    as (Hne & _ & b' & Hwt & Hlt & _).
  split; [exact Hne | exists b'; split; assumption].
Defined.

(** ** Where the status words lie *)

Lemma align_up_multiple (off a : Z) : 0 < a -> align_up off a mod a = 0.
Proof. intros Ha. unfold align_up. apply Z.mod_mul. lia. Qed.

Lemma struct_end_mono (fields : list (string * layout)) (off : Z) :
  Forall (fun f => wf_layout (snd f)) fields -> off <= struct_end off fields.
Proof.
  intros Hwf. pose proof (struct_end_ge fields off Hwf).
  pose proof (fields_size_nonneg fields Hwf). lia.
Qed.

Lemma field_offset_defined (name : string) (fields : list (string * layout)) :
  forall (off : Z) (l : layout),
    field_layout name fields = Some l ->
    exists o : Z, field_offset name off fields = Some o.
Proof.
  induction fields as [|[n l0] rest IH]; intros off l Hl; [discriminate|].
  cbn [field_layout field_offset] in *.
  destruct (String.eqb n name); [eauto | apply (IH _ l Hl)].
Qed.

Lemma field_offset_spec (name : string) (fields : list (string * layout)) :
  forall (off o : Z),
    Forall (fun f => wf_layout (snd f)) fields ->
    field_offset name off fields = Some o ->
    exists l : layout,
      field_layout name fields = Some l /\
      off <= o /\ o mod align l = 0 /\ o + size l <= struct_end off fields.
Proof.
  induction fields as [|[n l0] rest IH]; intros off o Hwf Ho; [discriminate|].
  inversion Hwf as [|? ? [Hs Ha] Hrest]; subst. cbn [snd] in Hs, Ha.
  cbn [field_layout field_offset struct_end] in *.
  pose proof (align_up_ge off (align l0) Ha) as Hge.
  destruct (String.eqb n name).
  - injection Ho as <-. exists l0. split; [reflexivity|].
    split; [exact Hge|]. split; [apply align_up_multiple, Ha|].
    apply struct_end_mono, Hrest.
  - destruct (IH _ _ Hrest Ho) as (l & Hl & Hlo & Hmod & Hhi).
    exists l. repeat split; try assumption. lia.
Qed.

Lemma field_offsets_apart (n1 n2 : string) (fields : list (string * layout)) :
  forall (off o1 o2 : Z) (l1 l2 : layout),
    Forall (fun f => wf_layout (snd f)) fields ->
    n1 <> n2 ->
    field_offset n1 off fields = Some o1 ->
    field_offset n2 off fields = Some o2 ->
    field_layout n1 fields = Some l1 ->
    field_layout n2 fields = Some l2 ->
    o1 + size l1 <= o2 \/ o2 + size l2 <= o1.
Proof.
  induction fields as [|[n l0] rest IH];
    intros off o1 o2 l1 l2 Hwf Hne H1 H2 L1 L2; [discriminate|].
  inversion Hwf as [|? ? [Hs Ha] Hrest]; subst. cbn [snd] in Hs, Ha.
  cbn [field_layout field_offset] in *.
  destruct (String.eqb_spec n n1) as [E1|N1];
    destruct (String.eqb_spec n n2) as [E2|N2].
  - congruence.
  - injection H1 as <-. injection L1 as <-.
    apply field_offset_spec in H2 as (_ & _ & Hlo & _); [|exact Hrest].
    left. exact Hlo.
  - injection H2 as <-. injection L2 as <-.
    apply field_offset_spec in H1 as (_ & _ & Hlo & _); [|exact Hrest].
    right. exact Hlo.
  - eapply IH; eassumption.
Qed.

Lemma JobPartPlanTransfer_fields_wf :
  Forall (fun f => wf_layout (snd f)) JobPartPlanTransfer_fields.
Proof.
  unfold JobPartPlanTransfer_fields.
  repeat (apply Forall_cons; [split; vm_compute; congruence|]).
  apply Forall_nil.
Qed.

(** X6. In the memory image of both structs the status word is a 32-bit
    word of its own.  Whatever the sizes and alignments of the imported
    types, [jobStatus] has an offset in [JobPartPlanHeader] that is a
    multiple of 4, its four bytes lie inside the header, and no other
    field of the header shares a byte with them; [transferStatus] is at
    offset 40 of the 48 bytes of [JobPartPlanTransfer], and no other field
    of the record shares a byte with it. *)
Theorem X6_status_words_apart (imp : Imports) (name : string) (o' : Z)
  (l' : layout) :
  wf_Imports imp ->
  name <> "jobStatus"%string ->
  name <> "transferStatus"%string ->
  (exists o : Z,
      field_offset "jobStatus" 0 (JobPartPlanHeader_fields imp) = Some o /\
      0 <= o /\ o mod 4 = 0 /\ o + 4 <= sizeofHeader imp /\
      (field_offset name 0 (JobPartPlanHeader_fields imp) = Some o' ->
       field_layout name (JobPartPlanHeader_fields imp) = Some l' ->
       o' + size l' <= o \/ o + 4 <= o')) /\
  field_offset "transferStatus" 0 JobPartPlanTransfer_fields = Some 40 /\
  sizeofTransfer = 48 /\
  (field_offset name 0 JobPartPlanTransfer_fields = Some o' ->
   field_layout name JobPartPlanTransfer_fields = Some l' ->
   o' + size l' <= 40 \/ 40 + 4 <= o').
Proof.
  intros Hwf Hj Ht.
  pose proof (JobPartPlanHeader_fields_wf imp Hwf) as Hfields.
  assert (Hl : field_layout "jobStatus" (JobPartPlanHeader_fields imp) =
               Some t_uint32) by reflexivity.
  destruct (field_offset_defined _ _ 0 _ Hl) as [o Ho].
  destruct (field_offset_spec _ _ 0 o Hfields Ho) as (l & Hl2 & Hlo & Hmod & Hhi).
  rewrite Hl in Hl2. injection Hl2 as <-.
  change (align t_uint32) with 4 in Hmod. change (size t_uint32) with 4 in Hhi.
  split; [|split; [reflexivity | split; [reflexivity|]]].
  - exists o. split; [exact Ho|]. split; [exact Hlo|]. split; [exact Hmod|].
    split.
    + unfold sizeofHeader, JobPartPlanHeader_t, t_struct. cbn [size].
      pose proof (align_up_ge (struct_end 0 (JobPartPlanHeader_fields imp))
                    (struct_align (JobPartPlanHeader_fields imp))
                    (struct_align_pos _)).
      lia.
    + intros Ho' Hl'.
      destruct (field_offsets_apart name "jobStatus" _ 0 o' o l' t_uint32
                  Hfields Hj Ho' Ho Hl' Hl) as [H|H].
      * left. exact H.
      * right. exact H.
  - intros Ho' Hl'.
    assert (Hs : field_offset "transferStatus" 0 JobPartPlanTransfer_fields =
                 Some 40) by reflexivity.
    assert (Hls : field_layout "transferStatus" JobPartPlanTransfer_fields =
                  Some t_uint32) by reflexivity.
    destruct (field_offsets_apart name "transferStatus" _ 0 o' 40 l' t_uint32
                JobPartPlanTransfer_fields_wf Ht Ho' Hs Hl' Hls) as [H|H].
    + left. exact H.
    + right. exact H.
Qed.

Lemma X6_status_words_apart_witness :
  (exists o : Z,
      field_offset "jobStatus" 0 (JobPartPlanHeader_fields sampleImports) =
      Some o /\ o mod 4 = 0 /\ 1528 <= o) /\
  32 + size t_uint64 <= 40.
Proof.
  destruct (X6_status_words_apart sampleImports "BlobData" 48
              JobPartPlanBlobData_t) as ((o & Ho & _ & Hmod & _ & Hapart) & _).
  - unfold wf_Imports, wf_layout, sampleImports. simpl. lia.
  - discriminate.
  - discriminate.
  - destruct (X6_status_words_apart sampleImports "CompletionTime" 32 t_uint64)
      as (_ & _ & _ & Hrec).
    + unfold wf_Imports, wf_layout, sampleImports. simpl. lia.
    + discriminate.
    + discriminate.
    + split.
      * exists o. split; [exact Ho|]. split; [exact Hmod|].
        destruct (Hapart eq_refl eq_refl) as [H|H].
        -- rewrite sizeofBlobData_value in H. lia.
        -- exfalso. vm_compute in Ho. injection Ho as <-. lia.
      * destruct (Hrec eq_refl eq_refl) as [H|H]; [exact H|].
        exfalso. lia.
Defined.
